(** * SwapButton: the "Review swap" control of the swap widget

    A shallow embedding of [src/lib/components/Swap/SwapButton.tsx].

    The component reads a number of hooks on every render (wallet, quote,
    allowance and permit state, pending-approval registry), derives the
    button's [actionProps] from them, keeps one piece of local state (the
    [activeTrade] snapshot shown in the confirmation dialog), and on confirm
    runs a promise chain that writes to two external stores (the displayed
    transaction hash and the transaction log).

    Hook results are gathered in the record [Env]; the stores the component
    writes are gathered in the record [Store]; callbacks are computations in
    a small state-and-exception monad [Js] whose results double as settled
    promises. *)

From Stdlib Require Import Bool List String ZArith Lia.
Import ListNotations.
Local Open Scope string_scope.
Local Open Scope list_scope.
Local Open Scope Z_scope.

(** ** JavaScript values used by the component *)

(** Errors that travel through the promise chain: the one thrown by
    [invariant(...)] and whatever the wallet or the submission rejects
    with. *)
Inductive JsError : Type :=
| InvariantViolation
| SubmissionError (reason : string).

(** A completed computation or a settled promise. *)
Inductive Outcome (A : Type) : Type :=
| Fulfilled (value : A)
| Rejected (error : JsError).
Arguments Fulfilled {A} value.
Arguments Rejected {A} error.

(** Truthiness of an optional object ([undefined] is falsy, every object is
    truthy), of an optional boolean and of an optional number. *)
Definition truthy {A : Type} (o : option A) : bool :=
  match o with Some _ => true | None => false end.

Definition truthy_bool (o : option bool) : bool :=
  match o with Some b => b | None => false end.

Definition truthy_number (o : option Z) : bool :=
  match o with Some n => negb (n =? 0) | None => false end.

(** [a && b] on optional objects: the left operand when it is falsy, the
    right operand otherwise. *)
Definition js_and {A : Type} (a b : option A) : option A :=
  match a with Some _ => b | None => a end.

(** [a || b] on optional objects. *)
Definition js_or {A : Type} (a b : option A) : option A :=
  match a with Some _ => a | None => b end.

(** ** Data model *)

Record Currency : Type := mkCurrency {
  isToken : bool;
  symbol : option string
}.

(** An amount of a currency, a fraction of its raw units. *)
Record CurrencyAmount : Type := mkAmount {
  currency : Currency;
  numerator : Z;
  denominator : Z
}.

(** Modelled from the spec: [lessThan] is a method of the SDK's
    [CurrencyAmount], which the component imports. The spec reads
    [balance.lessThan(amount)] as "the input balance is less than the
    required input amount"; two fractions are compared by
    cross-multiplication. *)
Definition lessThan (a b : CurrencyAmount) : bool :=
  numerator a * denominator b <? numerator b * denominator a.

Inductive TradeType : Type := EXACT_INPUT | EXACT_OUTPUT.

Record Trade : Type := mkTrade {
  trade_tradeType : TradeType;
  trade_inputAmount : CurrencyAmount;
  trade_outputAmount : CurrencyAmount
}.

Record TransactionResponse : Type := mkResponse {
  hash : string
}.

Inductive TransactionType : Type := APPROVAL | SWAP | WRAP.

(** The argument handed to [addTransaction]. *)
Record TransactionInfo : Type := mkTransactionInfo {
  info_response : TransactionResponse;
  info_type : TransactionType;
  info_tradeType : TradeType;
  info_inputCurrencyAmount : CurrencyAmount;
  info_outputCurrencyAmount : CurrencyAmount
}.

(** The click handler of an action: the one [useApproveAndPermit] returns. *)
Inductive Callback : Type :=
| handleApproveOrPermit.

Inductive ExplorerDataType : Type := TRANSACTION | TOKEN | ADDRESS | BLOCK.

(** The message of an action: the two translated sentences of the
    needs-approval branch, and the explorer link of the pending branch. *)
Inductive Message : Type :=
| AllowFirst (sym : option string)
| ApproveFirst (sym : option string)
| EtherscanLink (type : ExplorerDataType) (data : option string) (text : string).

Inductive Icon : Type := Spinner.

Inductive Label : Type := Allow | Approve.

Record Action : Type := mkAction {
  message : Message;
  icon : option Icon;
  onClick : Callback;
  children : Label
}.

(** [Partial<ActionButtonProps>]: every field may be left out. *)
Record ActionButtonProps : Type := mkProps {
  props_disabled : option bool;
  props_action : option Action
}.

(** ** What the hooks return on one render *)

Record Env : Type := mkEnv {
  disabled : option bool;                          (* the component's prop *)
  chainId : option Z;                              (* useActiveWeb3React *)
  trade : option Trade;                            (* useSwapInfo: trade.trade *)
  allowedSlippage : Z;
  inputCurrency : option Currency;
  inputCurrencyBalance : option CurrencyAmount;
  inputCurrencyAmount : option CurrencyAmount;
  outputCurrencyAmount : option CurrencyAmount;
  tradeType : TradeType;                           (* useSwapTradeType *)
  approvalCurrencyAmount : option CurrencyAmount;  (* useSwapCurrencyAmount *)
  notApproved : bool;                              (* useApproveAndPermit *)
  pendingApproval : bool;
  loadingSignature : bool;
  supportsPermit : bool;
  approvalHash : option string;                    (* usePendingApproval *)
  swapCallback : option (Outcome TransactionResponse)
    (* useSwapCallback: absent, or a call whose promise settles this way *)
}.

(** ** Button-state derivation: [actionProps] *)

(** The first condition of [actionProps], disjunct by disjunct. *)
Definition insufficientFunds (env : Env) : bool :=
  match inputCurrencyAmount env, inputCurrencyBalance env with
  | Some amount, Some balance => lessThan balance amount
  | _, _ => false
  end.

Definition blocked (env : Env) : bool :=
  truthy_bool (disabled env)
  || negb (truthy_number (chainId env))
  || loadingSignature env
  || insufficientFunds env.

(** The four object literals [actionProps] returns. *)
Definition disabledProps : ActionButtonProps :=
  {| props_disabled := Some true; props_action := None |}.

Definition needsApprovalProps (permit : bool) (c : Currency) : ActionButtonProps :=
  {| props_disabled := None;
     props_action := Some
       {| message := if permit then AllowFirst (symbol c) else ApproveFirst (symbol c);
          icon := None;
          onClick := handleApproveOrPermit;
          children := if permit then Allow else Approve |} |}.

Definition approvalPendingProps (h : option string) : ActionButtonProps :=
  {| props_disabled := Some true;
     props_action := Some
       {| message := EtherscanLink TRANSACTION h "Approval pending";
          icon := Some Spinner;
          onClick := handleApproveOrPermit;
          children := Approve |} |}.

Definition readyProps : ActionButtonProps :=
  {| props_disabled := None; props_action := None |}.

(** [inputCurrency || approvalCurrencyAmount?.currency] *)
Definition approvalCurrency (env : Env) : option Currency :=
  js_or (inputCurrency env) (option_map currency (approvalCurrencyAmount env)).

(** The body of the [useMemo]; [invariant(currency)] throws. *)
Definition actionProps (env : Env) : Outcome ActionButtonProps :=
  if blocked env then Fulfilled disabledProps
  else if notApproved env then
    match approvalCurrency env with
    | None => Rejected InvariantViolation
    | Some c => Fulfilled (needsApprovalProps (supportsPermit env) c)
    end
  else if pendingApproval env then Fulfilled (approvalPendingProps (approvalHash env))
  else Fulfilled readyProps.

(** ** The stores the component writes *)

(** [activeTrade] is the component's own [useState]; [displayTxHash] is the
    shared [displayTxHashAtom]; [transactions] is the transaction log, the
    sequence of records handed to [addTransaction]; [console] is what
    [console.log] has printed. *)
Record Store : Type := mkStore {
  activeTrade : option Trade;
  displayTxHash : option string;
  transactions : list TransactionInfo;
  console : list JsError
}.

(** ** A monad for callbacks and promise chains

    A computation reads and writes the store and either completes or throws;
    writes made before a throw stay. A promise that has settled is the same
    thing: its outcome together with the store at that time. *)
Definition Js (A : Type) : Type := Store -> Outcome A * Store.

Definition ret {A : Type} (a : A) : Js A := fun s => (Fulfilled a, s).

Definition throw {A : Type} (e : JsError) : Js A := fun s => (Rejected e, s).

Definition bind {A B : Type} (m : Js A) (k : A -> Js B) : Js B :=
  fun s =>
    match m s with
    | (Fulfilled a, s') => k a s'
    | (Rejected e, s') => (Rejected e, s')
    end.

Declare Scope js_scope.
Delimit Scope js_scope with js.
Notation "m ;; k" := (bind m (fun _ => k))
  (at level 61, right associativity) : js_scope.
Local Open Scope js_scope.

(** A promise already settled with outcome [o]. *)
Definition settled {A : Type} (o : Outcome A) : Js A := fun s => (o, s).

(** [p.then(f)]: [f] runs on fulfilment; a rejection passes through, and so
    does whatever [f] throws. *)
Definition then_ {A B : Type} (p : Js A) (f : A -> Js B) : Js B := bind p f.

(** [p.catch(h)]: [h] runs on rejection and its completion settles the
    result. *)
Definition catch_ {A : Type} (p : Js A) (h : JsError -> Js A) : Js A :=
  fun s =>
    match p s with
    | (Fulfilled a, s') => (Fulfilled a, s')
    | (Rejected e, s') => h e s'
    end.

(** [p.finally(g)]: [g] runs either way; the outcome of [p] is kept unless
    [g] throws. *)
Definition finally_ {A : Type} (p : Js A) (g : Js unit) : Js A :=
  fun s =>
    match p s with
    | (o, s') =>
      match g s' with
      | (Fulfilled _, s'') => (o, s'')
      | (Rejected e, s'') => (Rejected e, s'')
      end
    end.

Definition outcome {A : Type} (m : Js A) (s : Store) : Outcome A := fst (m s).
Definition exec {A : Type} (m : Js A) (s : Store) : Store := snd (m s).

(** *** Store primitives *)

(** React's [setState] with an updater function. *)
Definition updateActiveTrade (f : option Trade -> option Trade) : Js unit :=
  fun s =>
    (Fulfilled tt,
     {| activeTrade := f (activeTrade s);
        displayTxHash := displayTxHash s;
        transactions := transactions s;
        console := console s |}).

(** React's [setState] with a value. *)
Definition setActiveTrade (t : option Trade) : Js unit :=
  updateActiveTrade (fun _ => t).

(** Modelled from the spec: [displayTxHashAtom] is declared in
    [lib/state/swap]; the spec's DisplayState is a slot for the currently
    highlighted transaction hash, and the setter overwrites it. *)
Definition setDisplayTxHash (h : string) : Js unit :=
  fun s =>
    (Fulfilled tt,
     {| activeTrade := activeTrade s;
        displayTxHash := Some h;
        transactions := transactions s;
        console := console s |}).

(** Modelled from the spec: [useAddTransaction] is declared in
    [lib/hooks/transactions]; the spec's TransactionLog [record(...)]
    appends the record it is given. *)
Definition addTransaction (info : TransactionInfo) : Js unit :=
  fun s =>
    (Fulfilled tt,
     {| activeTrade := activeTrade s;
        displayTxHash := displayTxHash s;
        transactions := transactions s ++ [info];
        console := console s |}).

Definition console_log (e : JsError) : Js unit :=
  fun s =>
    (Fulfilled tt,
     {| activeTrade := activeTrade s;
        displayTxHash := displayTxHash s;
        transactions := transactions s;
        console := console s ++ [e] |}).

(** ** The component *)

(** The effect that runs when the live quote changes:
    [setActiveTrade((activeTrade) => activeTrade && trade.trade)]. *)
Definition tradeEffect (env : Env) : Js unit :=
  updateActiveTrade (fun active => js_and active (trade env)).

(** The [.then] callback of [onConfirm].
    [invariant(inputCurrencyAmount && outputCurrencyAmount)] throws unless
    both amounts are there, and past it both are known to be. *)
Definition onSwapResponse (env : Env) (response : TransactionResponse) : Js unit :=
  setDisplayTxHash (hash response) ;;
  match inputCurrencyAmount env, outputCurrencyAmount env with
  | Some input, Some output =>
    addTransaction
      {| info_response := response;
         info_type := SWAP;
         info_tradeType := tradeType env;
         info_inputCurrencyAmount := input;
         info_outputCurrencyAmount := output |}
  | _, _ => throw InvariantViolation
  end.

(** [onConfirm], run at the moment the submission promise settles. With no
    [swapCallback] the optional call [swapCallback?.()] short-circuits the
    whole chain, [.finally] included. *)
Definition onConfirm (env : Env) : Js unit :=
  match swapCallback env with
  | None => ret tt
  | Some submission =>
    finally_
      (catch_
         (then_ (settled submission) (onSwapResponse env))
         (fun error => console_log error))
      (setActiveTrade None)
  end.

(** The component's own closures. *)
Inductive Handler : Type :=
| OpenReview      (* () => setActiveTrade(trade.trade) *)
| CloseDialog     (* () => setActiveTrade(undefined) *)
| Confirm.        (* onConfirm *)

Definition handle (env : Env) (h : Handler) : Js unit :=
  match h with
  | OpenReview => setActiveTrade (trade env)
  | CloseDialog => setActiveTrade None
  | Confirm => onConfirm env
  end.

(** Everything that can write the component's stores from this file: the
    quote effect and the three closures. *)
Inductive Event : Type :=
| TradeUpdated
| Invoked (h : Handler).

Definition step (env : Env) (ev : Event) : Js unit :=
  match ev with
  | TradeUpdated => tradeEffect env
  | Invoked h => handle env h
  end.

(** *** The rendered tree *)

Inductive Color : Type := interactive | accent | dialogColor.

Record ButtonView : Type := mkButtonView {
  button_color : Color;
  button_onClick : Handler;
  button_props : ActionButtonProps
}.

Record DialogView : Type := mkDialogView {
  dialog_color : Color;
  dialog_onClose : Handler;
  dialog_trade : Trade;
  dialog_allowedSlippage : Z;
  dialog_onConfirm : Handler
}.

Record View : Type := mkView {
  view_button : ButtonView;
  view_dialog : option DialogView
}.

(** [{activeTrade && (<Dialog ...><SummaryDialog ... /></Dialog>)}] *)
Definition dialogElement (env : Env) (s : Store) : option DialogView :=
  match activeTrade s with
  | Some active =>
    Some {| dialog_color := dialogColor;
            dialog_onClose := CloseDialog;
            dialog_trade := active;
            dialog_allowedSlippage := allowedSlippage env;
            dialog_onConfirm := Confirm |}
  | None => None
  end.

(** One render: a throw in [actionProps] is a throw of the render. *)
Definition render (tokenColorExtraction : bool) (env : Env) (s : Store) : Outcome View :=
  match actionProps env with
  | Rejected e => Rejected e
  | Fulfilled props =>
    Fulfilled
      {| view_button :=
           {| button_color := if tokenColorExtraction then interactive else accent;
              button_onClick := OpenReview;
              button_props := props |};
         view_dialog := dialogElement env s |}
  end.

(** ** The four button states of the specification

    The specification names four states and says what the button shows in
    each; [in_state] reads these descriptions off a descriptor. They are the
    specification's words, to be compared with what [actionProps] returns:
    - disabled (insufficient funds or otherwise blocked): disabled, no action;
    - needs-approval: enabled, an action whose message asks to allow or
      approve the token and whose click is [handleApproveOrPermit];
    - approval-pending: disabled, an action that links to the pending
      transaction, shows the loading indicator and whose click is still
      [handleApproveOrPermit];
    - ready: enabled, no action. *)
Inductive ButtonState : Type :=
| DisabledState
| NeedsApprovalState
| ApprovalPendingState
| ReadyState.

Definition asksForApproval (a : Action) : bool :=
  match message a, icon a, onClick a with
  | (AllowFirst _ | ApproveFirst _), None, handleApproveOrPermit => true
  | _, _, _ => false
  end.

Definition showsPendingApproval (a : Action) : bool :=
  match message a, icon a, onClick a with
  | EtherscanLink TRANSACTION _ _, Some Spinner, handleApproveOrPermit => true
  | _, _, _ => false
  end.

Definition in_state (st : ButtonState) (p : ActionButtonProps) : bool :=
  match st with
  | DisabledState =>
    truthy_bool (props_disabled p) && negb (truthy (props_action p))
  | NeedsApprovalState =>
    negb (truthy_bool (props_disabled p))
    && match props_action p with Some a => asksForApproval a | None => false end
  | ApprovalPendingState =>
    truthy_bool (props_disabled p)
    && match props_action p with Some a => showsPendingApproval a | None => false end
  | ReadyState =>
    negb (truthy_bool (props_disabled p)) && negb (truthy (props_action p))
  end.

(** A descriptor is in exactly one state. *)
Definition in_exactly_one_state (p : ActionButtonProps) : Prop :=
  exists st, in_state st p = true /\ forall st', in_state st' p = true -> st' = st.

(** ** Hook wiring

    What the component computes between its hooks: the pending-approval
    predicate it hands to the approval hooks, the trade it executes, and the
    key under which it looks up the pending approval's hash. The two hooks
    these call are declared elsewhere and are taken as parameters. *)

(** [Boolean(x)] of an optional string: [undefined] and the empty string are
    falsy. *)
Definition truthy_string (o : option string) : bool :=
  match o with
  | Some EmptyString => false
  | Some (String _ _) => true
  | None => false
  end.

(** [useSwapApprovalOptimizedTrade(...) || trade.trade] *)
Definition optimizedTrade (approvalOptimized live : option Trade) : option Trade :=
  js_or approvalOptimized live.

(** [inputCurrency?.isToken ? inputCurrency : undefined] *)
Definition approvalToken (input : option Currency) : option Currency :=
  match input with
  | Some c => if isToken c then Some c else None
  | None => None
  end.

Section Wiring.

Variable usePendingApproval : option Currency -> option string -> option string.
Variable useSwapRouterAddress : option Trade -> option string.

(** [useIsPendingApproval(token, spender)] *)
Definition useIsPendingApproval (token : option Currency) (spender : option string) : bool :=
  truthy_string (usePendingApproval token spender).

(** The [approvalHash] of a render. *)
Definition lookupApprovalHash (input : option Currency)
           (approvalOptimized live : option Trade) : option string :=
  usePendingApproval (approvalToken input)
                     (useSwapRouterAddress (optimizedTrade approvalOptimized live)).

End Wiring.

(** ** Dependency arrays

    The values listed in the dependency arrays of the [useMemo] behind
    [actionProps], of the [useCallback] behind [onConfirm] and of the quote
    effect. [handleApproveOrPermit], [addTransaction] and [setDisplayTxHash]
    are the same in every render of this model and carry no data. *)
Definition actionPropsDeps (env : Env) :=
  (option_map currency (approvalCurrencyAmount env),
   approvalHash env,
   chainId env,
   disabled env,
   inputCurrency env,
   inputCurrencyAmount env,
   inputCurrencyBalance env,
   loadingSignature env,
   notApproved env,
   pendingApproval env,
   supportsPermit env).

Definition onConfirmDeps (env : Env) :=
  (inputCurrencyAmount env, outputCurrencyAmount env, swapCallback env, tradeType env).

(** ** Runs of the component

    A run is a sequence of events, each taking place in the render it
    belongs to. *)
Fixpoint run (trace : list (Env * Event)) (s : Store) : Store :=
  match trace with
  | [] => s
  | (env, ev) :: rest => run rest (exec (step env ev) s)
  end.

Definition isConfirm (ev : Event) : bool :=
  match ev with Invoked Confirm => true | _ => false end.

Definition isOpenReview (ev : Event) : bool :=
  match ev with Invoked OpenReview => true | _ => false end.

Definition confirms (trace : list (Env * Event)) : nat :=
  List.length (filter (fun step => isConfirm (snd step)) trace).

(** The record [onConfirm] writes for a response. *)
Definition swapRecord (env : Env) (r : TransactionResponse)
           (input output : CurrencyAmount) : TransactionInfo :=
  {| info_response := r;
     info_type := SWAP;
     info_tradeType := tradeType env;
     info_inputCurrencyAmount := input;
     info_outputCurrencyAmount := output |}.

(** ** Sample values *)

Definition USDC : Currency := {| isToken := true; symbol := Some "USDC" |}.
Definition ETH : Currency := {| isToken := false; symbol := Some "ETH" |}.

Definition usdc (n : Z) : CurrencyAmount :=
  {| currency := USDC; numerator := n; denominator := 1 |}.

(** 0.05 ETH *)
Definition eth_5_100 : CurrencyAmount :=
  {| currency := ETH; numerator := 5; denominator := 100 |}.

Definition quote : Trade :=
  {| trade_tradeType := EXACT_INPUT;
     trade_inputAmount := usdc 100;
     trade_outputAmount := eth_5_100 |}.

Definition fresher_quote : Trade :=
  {| trade_tradeType := EXACT_INPUT;
     trade_inputAmount := usdc 100;
     trade_outputAmount := {| currency := ETH; numerator := 6; denominator := 100 |} |}.

Definition receipt : TransactionResponse := {| hash := "0x5" |}.

(** A wallet on chain 1 holding 500 USDC, quoting 100 USDC for 0.05 ETH,
    allowance in place, nothing pending, a swap call that will succeed. *)
Definition readyEnv : Env :=
  {| disabled := None;
     chainId := Some 1;
     trade := Some quote;
     allowedSlippage := 50;
     inputCurrency := Some USDC;
     inputCurrencyBalance := Some (usdc 500);
     inputCurrencyAmount := Some (usdc 100);
     outputCurrencyAmount := Some eth_5_100;
     tradeType := EXACT_INPUT;
     approvalCurrencyAmount := Some (usdc 100);
     notApproved := false;
     pendingApproval := false;
     loadingSignature := false;
     supportsPermit := false;
     approvalHash := None;
     swapCallback := Some (Fulfilled receipt) |}.

Definition with_swapCallback (cb : option (Outcome TransactionResponse)) (env : Env) : Env :=
  {| disabled := disabled env;
     chainId := chainId env;
     trade := trade env;
     allowedSlippage := allowedSlippage env;
     inputCurrency := inputCurrency env;
     inputCurrencyBalance := inputCurrencyBalance env;
     inputCurrencyAmount := inputCurrencyAmount env;
     outputCurrencyAmount := outputCurrencyAmount env;
     tradeType := tradeType env;
     approvalCurrencyAmount := approvalCurrencyAmount env;
     notApproved := notApproved env;
     pendingApproval := pendingApproval env;
     loadingSignature := loadingSignature env;
     supportsPermit := supportsPermit env;
     approvalHash := approvalHash env;
     swapCallback := cb |}.

Definition with_approval (na pa : bool) (h : option string) (env : Env) : Env :=
  {| disabled := disabled env;
     chainId := chainId env;
     trade := trade env;
     allowedSlippage := allowedSlippage env;
     inputCurrency := inputCurrency env;
     inputCurrencyBalance := inputCurrencyBalance env;
     inputCurrencyAmount := inputCurrencyAmount env;
     outputCurrencyAmount := outputCurrencyAmount env;
     tradeType := tradeType env;
     approvalCurrencyAmount := approvalCurrencyAmount env;
     notApproved := na;
     pendingApproval := pa;
     loadingSignature := loadingSignature env;
     supportsPermit := supportsPermit env;
     approvalHash := h;
     swapCallback := swapCallback env |}.

Definition with_amounts (balance input output : option CurrencyAmount) (env : Env) : Env :=
  {| disabled := disabled env;
     chainId := chainId env;
     trade := trade env;
     allowedSlippage := allowedSlippage env;
     inputCurrency := inputCurrency env;
     inputCurrencyBalance := balance;
     inputCurrencyAmount := input;
     outputCurrencyAmount := output;
     tradeType := tradeType env;
     approvalCurrencyAmount := approvalCurrencyAmount env;
     notApproved := notApproved env;
     pendingApproval := pendingApproval env;
     loadingSignature := loadingSignature env;
     supportsPermit := supportsPermit env;
     approvalHash := approvalHash env;
     swapCallback := swapCallback env |}.

(** The next render of [readyEnv], after the quote moved to 0.06 ETH. *)
Definition refreshedEnv : Env :=
  {| disabled := None;
     chainId := Some 1;
     trade := Some fresher_quote;
     allowedSlippage := 50;
     inputCurrency := Some USDC;
     inputCurrencyBalance := Some (usdc 500);
     inputCurrencyAmount := Some (usdc 100);
     outputCurrencyAmount := Some (trade_outputAmount fresher_quote);
     tradeType := EXACT_INPUT;
     approvalCurrencyAmount := Some (usdc 100);
     notApproved := false;
     pendingApproval := false;
     loadingSignature := false;
     supportsPermit := false;
     approvalHash := None;
     swapCallback := Some (Fulfilled receipt) |}.

(** No input currency chosen yet, and the allowance check says not approved. *)
Definition noCurrencyEnv : Env :=
  {| disabled := None;
     chainId := Some 1;
     trade := None;
     allowedSlippage := 50;
     inputCurrency := None;
     inputCurrencyBalance := None;
     inputCurrencyAmount := None;
     outputCurrencyAmount := None;
     tradeType := EXACT_INPUT;
     approvalCurrencyAmount := None;
     notApproved := true;
     pendingApproval := false;
     loadingSignature := false;
     supportsPermit := false;
     approvalHash := None;
     swapCallback := None |}.

(** The dialog is closed, nothing submitted yet. *)
Definition idleStore : Store :=
  {| activeTrade := None; displayTxHash := None; transactions := []; console := [] |}.

(** The dialog is open on [quote]. *)
Definition reviewingStore : Store :=
  {| activeTrade := Some quote; displayTxHash := None; transactions := []; console := [] |}.

(** [readyEnv] with the caller's [disabled] set. *)
Definition disabledByCallerEnv : Env :=
  {| disabled := Some true;
     chainId := Some 1;
     trade := Some quote;
     allowedSlippage := 50;
     inputCurrency := Some USDC;
     inputCurrencyBalance := Some (usdc 500);
     inputCurrencyAmount := Some (usdc 100);
     outputCurrencyAmount := Some eth_5_100;
     tradeType := EXACT_INPUT;
     approvalCurrencyAmount := Some (usdc 100);
     notApproved := false;
     pendingApproval := false;
     loadingSignature := false;
     supportsPermit := false;
     approvalHash := None;
     swapCallback := Some (Fulfilled receipt) |}.

(** The quote is gone (the user cleared the amount). *)
Definition noQuoteEnv : Env :=
  {| disabled := None;
     chainId := Some 1;
     trade := None;
     allowedSlippage := 50;
     inputCurrency := Some USDC;
     inputCurrencyBalance := Some (usdc 500);
     inputCurrencyAmount := None;
     outputCurrencyAmount := None;
     tradeType := EXACT_INPUT;
     approvalCurrencyAmount := None;
     notApproved := false;
     pendingApproval := false;
     loadingSignature := false;
     supportsPermit := false;
     approvalHash := None;
     swapCallback := None |}.

(** A pending-approval registry with one entry, for USDC and the router. *)
Definition oneApprovalRegistry (token : option Currency) (spender : option string)
  : option string :=
  match token, spender with
  | Some c, Some "0xrouter" => if isToken c then Some "0xa" else None
  | _, _ => None
  end.

Definition routerOf (t : option Trade) : option string :=
  match t with Some _ => Some "0xrouter" | None => None end.

(** A signature request is in flight while the balance has not loaded yet;
    the allowance check says not approved. *)
Definition signingWithoutBalanceEnv : Env :=
  {| disabled := None;
     chainId := Some 1;
     trade := Some quote;
     allowedSlippage := 50;
     inputCurrency := Some USDC;
     inputCurrencyBalance := None;
     inputCurrencyAmount := Some (usdc 100);
     outputCurrencyAmount := Some eth_5_100;
     tradeType := EXACT_INPUT;
     approvalCurrencyAmount := Some (usdc 100);
     notApproved := true;
     pendingApproval := false;
     loadingSignature := true;
     supportsPermit := true;
     approvalHash := None;
     swapCallback := Some (Fulfilled receipt) |}.

(** Closes [in_exactly_one_state p] from the lemma that places [p]. *)
Ltac exactly_one st lem :=
  exists st; split; [now apply lem | intros st' Hst'; now apply lem in Hst'].

(** ** Concrete runs *)

Example ready_button : actionProps readyEnv = Fulfilled readyProps.
Proof. reflexivity. Qed.

Example needs_approval_button :
  actionProps (with_approval true false None readyEnv)
  = Fulfilled (needsApprovalProps false USDC).
Proof. reflexivity. Qed.

Example pending_button :
  actionProps (with_approval false true (Some "0xa") readyEnv)
  = Fulfilled (approvalPendingProps (Some "0xa")).
Proof. reflexivity. Qed.

Example successful_swap :
  onConfirm readyEnv reviewingStore
  = (Fulfilled tt,
     {| activeTrade := None;
        displayTxHash := Some "0x5";
        transactions :=
          [ {| info_response := receipt; info_type := SWAP; info_tradeType := EXACT_INPUT;
               info_inputCurrencyAmount := usdc 100;
               info_outputCurrencyAmount := eth_5_100 |} ];
        console := [] |}).
Proof. reflexivity. Qed.

Example declined_swap :
  onConfirm (with_swapCallback (Some (Rejected (SubmissionError "user rejected"))) readyEnv)
            reviewingStore
  = (Fulfilled tt,
     {| activeTrade := None; displayTxHash := None; transactions := [];
        console := [SubmissionError "user rejected"] |}).
Proof. reflexivity. Qed.

Example quote_refreshes_open_dialog :
  activeTrade (exec (tradeEffect refreshedEnv) reviewingStore) = Some fresher_quote.
Proof. reflexivity. Qed.

Example quote_does_not_open_dialog :
  exec (tradeEffect refreshedEnv) idleStore = idleStore.
Proof. reflexivity. Qed.

(** The scenario of the specification: 100 USDC for 0.05 ETH with no
    allowance; approve, wait for the approval, review, confirm. *)
Example approval_then_swap_scenario :
  actionProps (with_approval true false None readyEnv)
  = Fulfilled (needsApprovalProps false USDC)
  /\ actionProps (with_approval false true (Some "0xa") readyEnv)
     = Fulfilled (approvalPendingProps (Some "0xa"))
  /\ actionProps readyEnv = Fulfilled readyProps
  /\ exec (step readyEnv (Invoked OpenReview)) idleStore = reviewingStore
  /\ dialogElement readyEnv reviewingStore
     = Some {| dialog_color := dialogColor; dialog_onClose := CloseDialog;
               dialog_trade := quote; dialog_allowedSlippage := 50;
               dialog_onConfirm := Confirm |}
  /\ transactions (exec (step readyEnv (Invoked Confirm)) reviewingStore)
     = [ {| info_response := receipt; info_type := SWAP; info_tradeType := EXACT_INPUT;
            info_inputCurrencyAmount := usdc 100;
            info_outputCurrencyAmount := eth_5_100 |} ].
Proof. repeat split. Qed.

(** ** Button-state derivation *)

Section Derivation.

Variable env : Env.

Lemma blocked_cases :
  blocked env = true <->
  truthy_bool (disabled env) = true
  \/ truthy_number (chainId env) = false
  \/ loadingSignature env = true
  \/ insufficientFunds env = true.
Proof.
  unfold blocked.
  rewrite !orb_true_iff, negb_true_iff.
  tauto.
Qed.

Lemma blocked_is_disabled :
  blocked env = true -> actionProps env = Fulfilled disabledProps.
Proof.
  intros Hb. unfold actionProps. now rewrite Hb.
Qed.

Lemma insufficientFunds_spec :
  insufficientFunds env = true <->
  exists amount balance,
    inputCurrencyAmount env = Some amount
    /\ inputCurrencyBalance env = Some balance
    /\ lessThan balance amount = true.
Proof.
  unfold insufficientFunds. split.
  - destruct (inputCurrencyAmount env) as [amount|]; [|discriminate].
    destruct (inputCurrencyBalance env) as [balance|]; [|discriminate].
    intros Hlt. now exists amount, balance.
  - intros (amount & balance & -> & -> & Hlt). exact Hlt.
Qed.

(** What is left of [actionProps] once the first condition is false. *)
Lemma unblocked_actionProps :
  blocked env = false ->
  actionProps env =
    if notApproved env then
      match approvalCurrency env with
      | None => Rejected InvariantViolation
      | Some c => Fulfilled (needsApprovalProps (supportsPermit env) c)
      end
    else if pendingApproval env then Fulfilled (approvalPendingProps (approvalHash env))
    else Fulfilled readyProps.
Proof.
  intros Hb. unfold actionProps. now rewrite Hb.
Qed.

(** [actionProps] throws in one situation only. *)
Lemma actionProps_throws_iff (e : JsError) :
  actionProps env = Rejected e <->
  e = InvariantViolation
  /\ blocked env = false /\ notApproved env = true /\ approvalCurrency env = None.
Proof.
  unfold actionProps.
  destruct (blocked env), (notApproved env), (approvalCurrency env), (pendingApproval env);
    split; intros H; try discriminate; try (now destruct H as (_ & ? & ? & ?)).
  all: try (injection H as <-; now repeat split).
  all: now destruct H as (-> & _).
Qed.

Lemma approvalCurrency_none_iff :
  approvalCurrency env = None <->
  inputCurrency env = None /\ approvalCurrencyAmount env = None.
Proof.
  unfold approvalCurrency, js_or.
  destruct (inputCurrency env), (approvalCurrencyAmount env); cbn;
    split; solve [discriminate | now intros [? ?] | now split].
Qed.

(** When [actionProps] stops on the invariant, in terms of what the hooks
    returned. *)
Lemma actionProps_invariant_iff :
  actionProps env = Rejected InvariantViolation <->
  blocked env = false /\ notApproved env = true
  /\ inputCurrency env = None /\ approvalCurrencyAmount env = None.
Proof.
  rewrite actionProps_throws_iff, approvalCurrency_none_iff. tauto.
Qed.

End Derivation.

(** Each of the four descriptors sits in the state it is named after and in
    no other. *)
Lemma disabledProps_state (st : ButtonState) :
  in_state st disabledProps = true <-> st = DisabledState.
Proof. destruct st; cbn; split; congruence. Qed.

Lemma needsApprovalProps_state (permit : bool) (c : Currency) (st : ButtonState) :
  in_state st (needsApprovalProps permit c) = true <-> st = NeedsApprovalState.
Proof. destruct st, permit; cbn; split; congruence. Qed.

Lemma approvalPendingProps_state (h : option string) (st : ButtonState) :
  in_state st (approvalPendingProps h) = true <-> st = ApprovalPendingState.
Proof. destruct st; cbn; split; congruence. Qed.

Lemma readyProps_state (st : ButtonState) :
  in_state st readyProps = true <-> st = ReadyState.
Proof. destruct st; cbn; split; congruence. Qed.

(** The states are not exhaustive on descriptors in general: an enabled
    button carrying the pending link is in none of them, so landing in
    exactly one is a property of [actionProps], not of the type. *)
Example stray_descriptor_has_no_state :
  forall st,
    in_state st {| props_disabled := None;
                   props_action := props_action (approvalPendingProps None) |} = false.
Proof. now destruct st. Qed.

(** C5 (as amended). For every combination of inputs the derivation either
    returns a descriptor that is in exactly one of the four states
    disabled, needs-approval, approval-pending, ready, or it stops on the
    currency invariant; and it stops if and only if the first condition is
    false, [notApproved] holds and neither [inputCurrency] nor the approval
    amount is there to give a currency. *)
Theorem actionProps_exactly_one_state_or_invariant :
  forall env : Env,
    ((exists p, actionProps env = Fulfilled p /\ in_exactly_one_state p)
     \/ actionProps env = Rejected InvariantViolation)
    /\ (actionProps env = Rejected InvariantViolation <->
        blocked env = false /\ notApproved env = true
        /\ inputCurrency env = None /\ approvalCurrencyAmount env = None).
Proof.
  intros env. split; [|apply actionProps_invariant_iff].
  destruct (actionProps env) as [p|e] eqn:Hres.
  - left. exists p. split; [reflexivity|].
    unfold actionProps in Hres.
    destruct (blocked env).
    { injection Hres as <-. exactly_one DisabledState disabledProps_state. }
    destruct (notApproved env).
    { destruct (approvalCurrency env) as [c|]; [|discriminate].
      injection Hres as <-. exactly_one NeedsApprovalState needsApprovalProps_state. }
    destruct (pendingApproval env); injection Hres as <-.
    + exactly_one ApprovalPendingState approvalPendingProps_state.
    + exactly_one ReadyState readyProps_state.
  - right. apply actionProps_throws_iff in Hres as (-> & _). reflexivity.
Qed.

Lemma actionProps_invariant_witness :
  actionProps noCurrencyEnv = Rejected InvariantViolation.
Proof.
  apply (proj2 (proj2 (actionProps_exactly_one_state_or_invariant noCurrencyEnv))).
  repeat split.
Defined.

(** C5 as stated fails: with [notApproved] and no currency known there is no
    descriptor at all, the derivation throws. *)
Lemma actionProps_no_state_without_currency :
  blocked noCurrencyEnv = false
  /\ notApproved noCurrencyEnv = true
  /\ actionProps noCurrencyEnv = Rejected InvariantViolation
  /\ ~ (exists p, actionProps noCurrencyEnv = Fulfilled p /\ in_exactly_one_state p).
Proof.
  repeat split.
  intros (p & Hp & _). cbv in Hp. discriminate.
Qed.

(** C6. If the caller passed [disabled], or the chain is unknown, or a
    signature request is in flight, or the input balance is less than the
    required input amount, the descriptor is [{ disabled: true }]: disabled,
    no action. *)
Theorem blocked_button_is_disabled_without_action :
  forall env : Env,
    disabled env = Some true
    \/ chainId env = None
    \/ loadingSignature env = true
    \/ (exists amount balance,
          inputCurrencyAmount env = Some amount
          /\ inputCurrencyBalance env = Some balance
          /\ lessThan balance amount = true) ->
    actionProps env = Fulfilled disabledProps
    /\ props_disabled disabledProps = Some true
    /\ props_action disabledProps = None.
Proof.
  intros env H. split; [|split; reflexivity].
  apply blocked_is_disabled, blocked_cases.
  destruct H as [Hd | [Hc | [Hl | Hf]]].
  - left. now rewrite Hd.
  - right; left. now rewrite Hc.
  - right; right; left. exact Hl.
  - right; right; right. now apply insufficientFunds_spec.
Qed.

(** The scenario of C6: a balance of 50 USDC against a required 100 USDC
    disables the button whatever the allowance and permit status. *)
Lemma balance_50_required_100_is_disabled :
  forall env : Env,
    inputCurrencyBalance env = Some (usdc 50) ->
    inputCurrencyAmount env = Some (usdc 100) ->
    actionProps env = Fulfilled disabledProps.
Proof.
  intros env Hbal Hamt.
  apply blocked_is_disabled, blocked_cases.
  do 3 right. unfold insufficientFunds. now rewrite Hbal, Hamt.
Qed.

Lemma blocked_button_witness :
  actionProps
    (with_approval true false None
       (with_amounts (Some (usdc 50)) (Some (usdc 100)) (Some eth_5_100) readyEnv))
  = Fulfilled disabledProps
  /\ props_disabled disabledProps = Some true
  /\ props_action disabledProps = None.
Proof.
  apply blocked_button_is_disabled_without_action.
  do 3 right. exists (usdc 100), (usdc 50). repeat split.
Defined.

(** C2 (as amended). The approval-pending state is decided by the
    [pendingApproval] flag of the allowance service, after the first
    condition and after [notApproved]; the hash in the pending registry
    ([approvalHash]) is only the target of the link and decides nothing.
    - With the first condition false, [notApproved] false and
      [pendingApproval] true the button is approval-pending: disabled, an
      explorer link to [approvalHash], the loading indicator, and
      [handleApproveOrPermit] still as click handler.
    - With the first condition false, [notApproved] false and
      [pendingApproval] false the button is ready, whatever the registry
      holds.
    - With the first condition false and [notApproved] true the
      needs-approval branch takes precedence: with a currency known the
      button is the enabled needs-approval one, whatever [pendingApproval]
      and the registry say.
    - With the first condition true the button is disabled with no action.
    So a returned descriptor is approval-pending if and only if the first
    condition is false, [notApproved] is false and [pendingApproval] is
    true. *)
Theorem pending_approval_button :
  forall env : Env,
    (blocked env = false ->
     notApproved env = false ->
     pendingApproval env = true ->
     actionProps env = Fulfilled (approvalPendingProps (approvalHash env))
     /\ in_state ApprovalPendingState (approvalPendingProps (approvalHash env)) = true
     /\ props_disabled (approvalPendingProps (approvalHash env)) = Some true
     /\ option_map message (props_action (approvalPendingProps (approvalHash env)))
        = Some (EtherscanLink TRANSACTION (approvalHash env) "Approval pending")
     /\ option_map icon (props_action (approvalPendingProps (approvalHash env)))
        = Some (Some Spinner)
     /\ option_map onClick (props_action (approvalPendingProps (approvalHash env)))
        = Some handleApproveOrPermit)
    /\ (blocked env = false ->
        notApproved env = false ->
        pendingApproval env = false ->
        actionProps env = Fulfilled readyProps)
    /\ (blocked env = false ->
        notApproved env = true ->
        forall c,
          approvalCurrency env = Some c ->
          actionProps env = Fulfilled (needsApprovalProps (supportsPermit env) c)
          /\ in_state NeedsApprovalState (needsApprovalProps (supportsPermit env) c) = true
          /\ props_disabled (needsApprovalProps (supportsPermit env) c) = None)
    /\ (blocked env = true ->
        actionProps env = Fulfilled disabledProps
        /\ props_action disabledProps = None)
    /\ (forall p,
          actionProps env = Fulfilled p ->
          (in_state ApprovalPendingState p = true <->
           blocked env = false /\ notApproved env = false /\ pendingApproval env = true)).
Proof.
  intros env. split; [|split; [|split; [|split]]].
  - intros Hb Hna Hpa.
    rewrite (unblocked_actionProps env Hb), Hna, Hpa.
    repeat split.
  - intros Hb Hna Hpa.
    now rewrite (unblocked_actionProps env Hb), Hna, Hpa.
  - intros Hb Hna c Hc.
    rewrite (unblocked_actionProps env Hb), Hna, Hc.
    split; [reflexivity|]. split; [|reflexivity].
    now apply needsApprovalProps_state.
  - intros Hb. split; [now apply blocked_is_disabled | reflexivity].
  - intros p Hres. unfold actionProps in Hres.
    destruct (blocked env).
    { injection Hres as <-. rewrite disabledProps_state. intuition congruence. }
    destruct (notApproved env).
    { destruct (approvalCurrency env) as [c|]; [|discriminate].
      injection Hres as <-. rewrite needsApprovalProps_state. intuition congruence. }
    destruct (pendingApproval env); injection Hres as <-.
    + rewrite approvalPendingProps_state. intuition congruence.
    + rewrite readyProps_state. intuition congruence.
Qed.

Lemma pending_approval_button_witness :
  actionProps (with_approval false true (Some "0xa") readyEnv)
  = Fulfilled (approvalPendingProps (Some "0xa")).
Proof.
  exact (proj1 (proj1 (pending_approval_button
                         (with_approval false true (Some "0xa") readyEnv))
                      eq_refl eq_refl eq_refl)).
Defined.

(** C2 as stated fails, in three ways, each with a hash in the pending
    registry. With [pendingApproval] and [notApproved] both reported the
    button is the enabled needs-approval one. With the hash there but the
    [pendingApproval] flag false the button is ready: enabled, no link.
    With the caller's [disabled] the button is disabled with no action, so
    neither the link nor the click handler. *)
Lemma pending_hash_does_not_decide_the_state :
  (approvalHash (with_approval true true (Some "0xa") readyEnv) = Some "0xa"
   /\ pendingApproval (with_approval true true (Some "0xa") readyEnv) = true
   /\ actionProps (with_approval true true (Some "0xa") readyEnv)
      = Fulfilled (needsApprovalProps false USDC)
   /\ in_state ApprovalPendingState (needsApprovalProps false USDC) = false
   /\ props_disabled (needsApprovalProps false USDC) = None)
  /\ (approvalHash (with_approval false false (Some "0xa") readyEnv) = Some "0xa"
      /\ notApproved (with_approval false false (Some "0xa") readyEnv) = false
      /\ actionProps (with_approval false false (Some "0xa") readyEnv)
         = Fulfilled readyProps
      /\ in_state ApprovalPendingState readyProps = false
      /\ props_disabled readyProps = None
      /\ props_action readyProps = None)
  /\ (approvalHash (with_approval false true (Some "0xa") disabledByCallerEnv) = Some "0xa"
      /\ pendingApproval (with_approval false true (Some "0xa") disabledByCallerEnv) = true
      /\ actionProps (with_approval false true (Some "0xa") disabledByCallerEnv)
         = Fulfilled disabledProps
      /\ in_state ApprovalPendingState disabledProps = false
      /\ props_action disabledProps = None).
Proof. repeat split. Qed.

(** C10 (as amended). The insufficient-funds check needs both the input
    amount and the input balance: when either is absent it is false. The
    derivation then goes on to the approval branches provided none of the
    other three conditions holds (the caller's [disabled], an unknown chain,
    a signature request in flight); when one of them holds the button is
    disabled all the same. *)
Theorem missing_amount_or_balance_skips_funds_check :
  forall env : Env,
    inputCurrencyAmount env = None \/ inputCurrencyBalance env = None ->
    insufficientFunds env = false
    /\ (truthy_bool (disabled env) = false ->
        truthy_number (chainId env) = true ->
        loadingSignature env = false ->
        actionProps env =
          if notApproved env then
            match approvalCurrency env with
            | None => Rejected InvariantViolation
            | Some c => Fulfilled (needsApprovalProps (supportsPermit env) c)
            end
          else if pendingApproval env
               then Fulfilled (approvalPendingProps (approvalHash env))
               else Fulfilled readyProps)
    /\ (truthy_bool (disabled env) = true
        \/ truthy_number (chainId env) = false
        \/ loadingSignature env = true ->
        actionProps env = Fulfilled disabledProps).
Proof.
  intros env Habsent.
  assert (Hfunds : insufficientFunds env = false).
  { unfold insufficientFunds.
    destruct Habsent as [-> | Hbal]; [reflexivity|].
    rewrite Hbal. now destruct (inputCurrencyAmount env). }
  split; [exact Hfunds|]. split.
  - intros Hd Hc Hl.
    apply unblocked_actionProps.
    unfold blocked. now rewrite Hd, Hc, Hl, Hfunds.
  - intros Hother.
    apply blocked_is_disabled, blocked_cases. tauto.
Qed.

Lemma missing_balance_witness :
  insufficientFunds
    (with_approval true false None
       (with_amounts None (Some (usdc 100)) (Some eth_5_100) readyEnv)) = false
  /\ actionProps
       (with_approval true false None
          (with_amounts None (Some (usdc 100)) (Some eth_5_100) readyEnv))
     = Fulfilled (needsApprovalProps false USDC).
Proof.
  pose proof (missing_amount_or_balance_skips_funds_check
                (with_approval true false None
                   (with_amounts None (Some (usdc 100)) (Some eth_5_100) readyEnv))
                (or_intror eq_refl)) as (Hfunds & Hrest & _).
  split; [exact Hfunds | exact (Hrest eq_refl eq_refl eq_refl)].
Defined.

(** C10 as stated fails: with the balance absent the funds check is false,
    yet a signature request in flight disables the button and the approval
    branches are not reached, although [notApproved] holds. *)
Lemma missing_balance_but_signing_is_disabled :
  inputCurrencyBalance signingWithoutBalanceEnv = None
  /\ insufficientFunds signingWithoutBalanceEnv = false
  /\ loadingSignature signingWithoutBalanceEnv = true
  /\ notApproved signingWithoutBalanceEnv = true
  /\ actionProps signingWithoutBalanceEnv = Fulfilled disabledProps
  /\ actionProps signingWithoutBalanceEnv
     <> Fulfilled (needsApprovalProps (supportsPermit signingWithoutBalanceEnv) USDC).
Proof. repeat split. discriminate. Qed.

(** ** The confirm chain *)

Section Confirm.

Variables (env : Env) (s : Store).

(** The three ways [onConfirm] can go, as store equations. *)
Lemma onConfirm_absent :
  swapCallback env = None -> onConfirm env s = (Fulfilled tt, s).
Proof.
  intros H. unfold onConfirm. now rewrite H.
Qed.

Lemma onConfirm_rejected (e : JsError) :
  swapCallback env = Some (Rejected e) ->
  onConfirm env s
  = (Fulfilled tt,
     {| activeTrade := None;
        displayTxHash := displayTxHash s;
        transactions := transactions s;
        console := console s ++ [e] |}).
Proof.
  intros H. unfold onConfirm. now rewrite H.
Qed.

Lemma onSwapResponse_recorded (r : TransactionResponse) (input output : CurrencyAmount) :
  inputCurrencyAmount env = Some input ->
  outputCurrencyAmount env = Some output ->
  onSwapResponse env r s
  = (Fulfilled tt,
     {| activeTrade := activeTrade s;
        displayTxHash := Some (hash r);
        transactions :=
          transactions s
          ++ [ {| info_response := r;
                  info_type := SWAP;
                  info_tradeType := tradeType env;
                  info_inputCurrencyAmount := input;
                  info_outputCurrencyAmount := output |} ];
        console := console s |}).
Proof.
  intros Hin Hout. unfold onSwapResponse. now rewrite Hin, Hout.
Qed.

Lemma onSwapResponse_invariant (r : TransactionResponse) :
  inputCurrencyAmount env = None \/ outputCurrencyAmount env = None ->
  onSwapResponse env r s
  = (Rejected InvariantViolation,
     {| activeTrade := activeTrade s;
        displayTxHash := Some (hash r);
        transactions := transactions s;
        console := console s |}).
Proof.
  intros H. unfold onSwapResponse.
  destruct H as [-> | ->]; [reflexivity|].
  now destruct (inputCurrencyAmount env).
Qed.

Lemma onConfirm_fulfilled (r : TransactionResponse) :
  swapCallback env = Some (Fulfilled r) ->
  onConfirm env s
  = finally_ (catch_ (onSwapResponse env r) console_log) (setActiveTrade None) s.
Proof.
  intros H. unfold onConfirm. now rewrite H.
Qed.

End Confirm.

(** C1 (as amended). Whenever a swap callback is present, [activeTrade] is
    absent once the submission has settled, whether it succeeded or was
    rejected, and the chain itself ends fulfilled; when the swap callback is
    absent, [onConfirm] does nothing at all and the stores, [activeTrade]
    included, are exactly as before. *)
Theorem onConfirm_clears_activeTrade_once_settled :
  forall (env : Env) (s : Store),
    (forall submission,
        swapCallback env = Some submission ->
        activeTrade (exec (onConfirm env) s) = None
        /\ outcome (onConfirm env) s = Fulfilled tt)
    /\ (swapCallback env = None -> onConfirm env s = (Fulfilled tt, s)).
Proof.
  intros env s. split; [|apply onConfirm_absent].
  intros [r|e] Hcb.
  - unfold exec, outcome.
    rewrite (onConfirm_fulfilled env s r Hcb).
    unfold finally_, catch_.
    destruct (onSwapResponse env r s) as [[[]|e] s']; split; reflexivity.
  - unfold exec, outcome.
    rewrite (onConfirm_rejected env s e Hcb). split; reflexivity.
Qed.

Lemma onConfirm_clears_activeTrade_witness :
  activeTrade reviewingStore = Some quote
  /\ activeTrade (exec (onConfirm readyEnv) reviewingStore) = None.
Proof.
  split; [reflexivity|].
  exact (proj1 (proj1 (onConfirm_clears_activeTrade_once_settled readyEnv reviewingStore)
                      (Fulfilled receipt) eq_refl)).
Defined.

(** C1 as stated fails in the no-op case: with no swap callback the dialog
    stays open on the same trade. *)
Lemma onConfirm_without_callback_keeps_activeTrade :
  swapCallback (with_swapCallback None readyEnv) = None
  /\ activeTrade reviewingStore = Some quote
  /\ activeTrade (exec (onConfirm (with_swapCallback None readyEnv)) reviewingStore)
     = Some quote
  /\ dialogElement (with_swapCallback None readyEnv)
       (exec (onConfirm (with_swapCallback None readyEnv)) reviewingStore) <> None.
Proof.
  repeat split. cbv. discriminate.
Qed.

(** C3. If the submission promise rejects, no record is added to the
    transaction log, the displayed transaction hash is left as it was, the
    error is printed and the chain ends fulfilled: nothing propagates. *)
Theorem rejected_swap_changes_nothing_but_the_dialog :
  forall (env : Env) (s : Store) (e : JsError),
    swapCallback env = Some (Rejected e) ->
    transactions (exec (onConfirm env) s) = transactions s
    /\ displayTxHash (exec (onConfirm env) s) = displayTxHash s
    /\ console (exec (onConfirm env) s) = console s ++ [e]
    /\ outcome (onConfirm env) s = Fulfilled tt.
Proof.
  intros env s e Hcb.
  unfold exec, outcome.
  rewrite (onConfirm_rejected env s e Hcb); cbn.
  repeat split.
Qed.

Lemma rejected_swap_witness :
  transactions
    (exec (onConfirm (with_swapCallback (Some (Rejected (SubmissionError "user rejected")))
                                        readyEnv))
          reviewingStore) = []
  /\ displayTxHash
       (exec (onConfirm (with_swapCallback (Some (Rejected (SubmissionError "user rejected")))
                                           readyEnv))
             reviewingStore) = None.
Proof.
  pose proof (rejected_swap_changes_nothing_but_the_dialog
                (with_swapCallback (Some (Rejected (SubmissionError "user rejected"))) readyEnv)
                reviewingStore (SubmissionError "user rejected") eq_refl)
    as (Hlog & Hhash & _).
  split; [exact Hlog | exact Hhash].
Defined.

(** C4. If the submission promise resolves and both amounts are present,
    the displayed hash is the new transaction's and the transaction log is
    the old one followed by exactly one record, of type SWAP, carrying the
    response, the trade type and the two amounts; if either amount is
    missing, the [.then] callback stops on the invariant and the log is the
    old one. *)
Theorem fulfilled_swap_is_displayed_and_recorded :
  forall (env : Env) (s : Store) (r : TransactionResponse),
    swapCallback env = Some (Fulfilled r) ->
    (forall input output,
        inputCurrencyAmount env = Some input ->
        outputCurrencyAmount env = Some output ->
        displayTxHash (exec (onConfirm env) s) = Some (hash r)
        /\ transactions (exec (onConfirm env) s)
           = transactions s
             ++ [ {| info_response := r;
                     info_type := SWAP;
                     info_tradeType := tradeType env;
                     info_inputCurrencyAmount := input;
                     info_outputCurrencyAmount := output |} ])
    /\ (inputCurrencyAmount env = None \/ outputCurrencyAmount env = None ->
        outcome (onSwapResponse env r) s = Rejected InvariantViolation
        /\ transactions (exec (onSwapResponse env r) s) = transactions s
        /\ transactions (exec (onConfirm env) s) = transactions s).
Proof.
  intros env s r Hcb. split.
  - intros input output Hin Hout.
    unfold exec. rewrite (onConfirm_fulfilled env s r Hcb).
    unfold finally_, catch_.
    rewrite (onSwapResponse_recorded env s r input output Hin Hout); cbn.
    split; reflexivity.
  - intros Hmissing.
    unfold exec, outcome. rewrite (onConfirm_fulfilled env s r Hcb).
    unfold finally_, catch_.
    rewrite (onSwapResponse_invariant env s r Hmissing); cbn.
    repeat split.
Qed.

Lemma fulfilled_swap_witness :
  displayTxHash (exec (onConfirm readyEnv) reviewingStore) = Some "0x5"
  /\ transactions (exec (onConfirm readyEnv) reviewingStore)
     = [ {| info_response := receipt;
            info_type := SWAP;
            info_tradeType := EXACT_INPUT;
            info_inputCurrencyAmount := usdc 100;
            info_outputCurrencyAmount := eth_5_100 |} ].
Proof.
  exact (proj1 (fulfilled_swap_is_displayed_and_recorded readyEnv reviewingStore receipt eq_refl)
               (usdc 100) eth_5_100 eq_refl eq_refl).
Defined.

(** C9. On a successful submission the displayed hash is written before the
    amounts are checked: if either amount is absent, the [.then] callback
    stops on the invariant with the new hash already displayed and nothing
    added to the log; the [.catch] handler prints that error and the chain
    ends fulfilled. *)
Theorem hash_displayed_before_invariant :
  forall (env : Env) (s : Store) (r : TransactionResponse),
    swapCallback env = Some (Fulfilled r) ->
    inputCurrencyAmount env = None \/ outputCurrencyAmount env = None ->
    onSwapResponse env r s
    = (Rejected InvariantViolation,
       {| activeTrade := activeTrade s;
          displayTxHash := Some (hash r);
          transactions := transactions s;
          console := console s |})
    /\ onConfirm env s
       = (Fulfilled tt,
          {| activeTrade := None;
             displayTxHash := Some (hash r);
             transactions := transactions s;
             console := console s ++ [InvariantViolation] |}).
Proof.
  intros env s r Hcb Hmissing.
  pose proof (onSwapResponse_invariant env s r Hmissing) as Hthen.
  split; [exact Hthen|].
  rewrite (onConfirm_fulfilled env s r Hcb).
  unfold finally_, catch_. now rewrite Hthen.
Qed.

Lemma hash_displayed_before_invariant_witness :
  onConfirm (with_amounts (Some (usdc 500)) (Some (usdc 100)) None readyEnv) reviewingStore
  = (Fulfilled tt,
     {| activeTrade := None;
        displayTxHash := Some "0x5";
        transactions := [];
        console := [InvariantViolation] |}).
Proof.
  exact (proj2 (hash_displayed_before_invariant
                  (with_amounts (Some (usdc 500)) (Some (usdc 100)) None readyEnv)
                  reviewingStore receipt eq_refl (or_intror eq_refl))).
Defined.

(** ** The snapshot and the dialog *)

Lemma tradeEffect_activeTrade (env : Env) (s : Store) :
  activeTrade (exec (tradeEffect env) s) = js_and (activeTrade s) (trade env).
Proof. reflexivity. Qed.

(** None of the component's writes turns an absent snapshot into a present
    one, except the click on the primary button. *)
Lemma absent_snapshot_stays_absent (env : Env) (ev : Event) (s : Store) :
  activeTrade s = None ->
  ev <> Invoked OpenReview ->
  activeTrade (exec (step env ev) s) = None.
Proof.
  intros Hnone Hev.
  destruct ev as [|[| |]]; cbn.
  - now rewrite Hnone.
  - contradiction.
  - reflexivity.
  - unfold exec, onConfirm.
    destruct (swapCallback env) as [[r|e]|]; [| reflexivity | exact Hnone].
    unfold finally_, catch_, then_, bind, settled.
    now destruct (onSwapResponse env r s) as [[[]|e] s'].
Qed.

(** C7. When the live quote changes, a snapshot that is set is replaced
    with the new live trade and an absent one stays absent; the click on the
    primary button sets the snapshot to the live trade of that render; and of
    all the component's writes only that click can make an absent snapshot
    present. *)
Theorem snapshot_follows_quote_only_while_set :
  forall (env : Env) (s : Store),
    (forall t, activeTrade s = Some t ->
               activeTrade (exec (step env TradeUpdated) s) = trade env)
    /\ (activeTrade s = None ->
        activeTrade (exec (step env TradeUpdated) s) = None)
    /\ activeTrade (exec (step env (Invoked OpenReview)) s) = trade env
    /\ (forall ev, activeTrade s = None ->
                   activeTrade (exec (step env ev) s) <> None ->
                   ev = Invoked OpenReview).
Proof.
  intros env s. repeat split.
  - intros t Hset. cbn. now rewrite Hset.
  - intros Hnone. cbn. now rewrite Hnone.
  - intros ev Hnone Hcreated.
    destruct ev as [|[| |]]; try reflexivity; exfalso; apply Hcreated;
      now apply absent_snapshot_stays_absent.
Qed.

Lemma snapshot_follows_quote_witness :
  activeTrade reviewingStore = Some quote
  /\ activeTrade
       (exec (step refreshedEnv TradeUpdated) reviewingStore) = Some fresher_quote.
Proof.
  split; [reflexivity|].
  exact (proj1 (snapshot_follows_quote_only_while_set refreshedEnv reviewingStore)
               quote eq_refl).
Defined.

(** The rendered tree carries the dialog element as it is. *)
Lemma render_dialog (tokenColorExtraction : bool) (env : Env) (s : Store) (v : View) :
  render tokenColorExtraction env s = Fulfilled v ->
  view_dialog v = dialogElement env s
  /\ button_onClick (view_button v) = OpenReview.
Proof.
  unfold render. destruct (actionProps env) as [p|e]; [|discriminate].
  intros [= <-]. split; reflexivity.
Qed.

(** The dialog element is there exactly when [activeTrade] is set, it
    shows that very trade with [onConfirm] as its confirm action, and its
    close handler clears [activeTrade], after which there is no dialog
    element. *)
Lemma dialogElement_iff_activeTrade_set :
  forall (env : Env) (s : Store),
    (forall t,
        activeTrade s = Some t <->
        exists d, dialogElement env s = Some d /\ dialog_trade d = t)
    /\ (activeTrade s = None <-> dialogElement env s = None)
    /\ (forall d, dialogElement env s = Some d ->
                  dialog_onConfirm d = Confirm
                  /\ handle env (dialog_onConfirm d) = onConfirm env
                  /\ activeTrade (exec (handle env (dialog_onClose d)) s) = None
                  /\ dialogElement env (exec (handle env (dialog_onClose d)) s) = None).
Proof.
  intros env s. unfold dialogElement at 1 2 3.
  destruct (activeTrade s) as [active|] eqn:Hactive.
  - split; [|split].
    + intros t. split.
      * intros [= <-]. eexists; split; reflexivity.
      * intros (d & [= <-] & <-). reflexivity.
    + split; discriminate.
    + intros d [= <-]. repeat split.
  - split; [|split].
    + intros t. split; [discriminate|]. intros (d & Hd & _). discriminate.
    + split; reflexivity.
    + intros d Hd. discriminate.
Qed.

(** C8 (as amended). A render either returns a tree or throws the currency
    invariant of [actionProps], and it throws if and only if the first
    condition is false, [notApproved] holds and no currency is known,
    whatever [activeTrade] is. In every tree a render returns, the dialog
    is there if and only if [activeTrade] is set; it shows that very trade
    with [onConfirm] as its confirm action; and its close handler clears
    [activeTrade], after which the render returns the same button and no
    dialog. *)
Theorem dialog_rendered_iff_activeTrade_set :
  forall (tokenColorExtraction : bool) (env : Env) (s : Store),
    ((exists v, render tokenColorExtraction env s = Fulfilled v)
     \/ render tokenColorExtraction env s = Rejected InvariantViolation)
    /\ (render tokenColorExtraction env s = Rejected InvariantViolation <->
        blocked env = false /\ notApproved env = true
        /\ inputCurrency env = None /\ approvalCurrencyAmount env = None)
    /\ (forall v,
          render tokenColorExtraction env s = Fulfilled v ->
          (forall t,
              activeTrade s = Some t <->
              exists d, view_dialog v = Some d /\ dialog_trade d = t)
          /\ (activeTrade s = None <-> view_dialog v = None)
          /\ (forall d,
                 view_dialog v = Some d ->
                 dialog_onConfirm d = Confirm
                 /\ handle env (dialog_onConfirm d) = onConfirm env
                 /\ activeTrade (exec (handle env (dialog_onClose d)) s) = None
                 /\ render tokenColorExtraction env (exec (handle env (dialog_onClose d)) s)
                    = Fulfilled {| view_button := view_button v; view_dialog := None |})).
Proof.
  intros tce env s.
  pose proof (actionProps_invariant_iff env) as Hthrows.
  pose proof (dialogElement_iff_activeTrade_set env s) as (Hset & Hunset & Hdialog).
  unfold render.
  destruct (actionProps env) as [p|e] eqn:Hres.
  - split; [left; eexists; reflexivity|]. split.
    + rewrite <- Hthrows. split; discriminate.
    + intros v [= <-]. cbn [view_dialog view_button].
      split; [exact Hset|]. split; [exact Hunset|].
      intros d Hd. destruct (Hdialog d Hd) as (Hc & Hh & Ha & Hgone).
      repeat split; try assumption.
      now rewrite Hgone.
  - assert (He : e = InvariantViolation).
    { apply actionProps_throws_iff in Hres. tauto. }
    subst e. split; [now right|]. split.
    + rewrite <- Hthrows. tauto.
    + intros v Hv. discriminate.
Qed.

Lemma dialog_rendered_witness :
  exists v d,
    render true readyEnv reviewingStore = Fulfilled v
    /\ view_dialog v = Some d
    /\ dialog_trade d = quote.
Proof.
  pose proof (proj2 (proj2 (dialog_rendered_iff_activeTrade_set true readyEnv reviewingStore))
                    _ eq_refl) as (Hset & _).
  destruct (proj1 (Hset quote) eq_refl) as (d & Hd & Ht).
  eexists. exists d. split; [reflexivity|]. split; [exact Hd | exact Ht].
Defined.

(** C8 as stated fails: with [activeTrade] set, a render whose derivation
    stops on the invariant throws, so no dialog is rendered. *)
Lemma activeTrade_set_but_render_throws :
  activeTrade reviewingStore = Some quote
  /\ render false noCurrencyEnv reviewingStore = Rejected InvariantViolation
  /\ ~ (exists v d,
          render false noCurrencyEnv reviewingStore = Fulfilled v
          /\ view_dialog v = Some d).
Proof.
  repeat split.
  intros (v & d & Hv & _). cbv in Hv. discriminate.
Qed.

(** ** Further properties of the derivation *)

(** X1. The descriptor is [{ disabled: true }] for the four reasons of the
    first condition and for no other: the caller's [disabled], a chain id
    that is undefined or zero, a signature request in flight, or a balance
    below the required input amount. *)
Theorem disabled_without_action_iff :
  forall env : Env,
    actionProps env = Fulfilled disabledProps <->
    disabled env = Some true
    \/ chainId env = None
    \/ chainId env = Some 0
    \/ loadingSignature env = true
    \/ (exists amount balance,
          inputCurrencyAmount env = Some amount
          /\ inputCurrencyBalance env = Some balance
          /\ lessThan balance amount = true).
Proof.
  intros env. split.
  - intros Hres.
    assert (Hb : blocked env = true).
    { destruct (blocked env) eqn:Hb; [reflexivity|].
      rewrite (unblocked_actionProps env Hb) in Hres.
      destruct (notApproved env).
      - destruct (approvalCurrency env); discriminate.
      - destruct (pendingApproval env); discriminate. }
    apply blocked_cases in Hb.
    destruct Hb as [Hd | [Hc | [Hl | Hf]]].
    + left. destruct (disabled env) as [[|]|]; cbn in Hd; congruence.
    + destruct (chainId env) as [n|]; [|now right; left].
      right; right; left. cbn in Hc.
      apply negb_false_iff, Z.eqb_eq in Hc. now subst.
    + now do 3 right; left.
    + do 4 right. now apply insufficientFunds_spec.
  - intros H. apply blocked_is_disabled, blocked_cases.
    destruct H as [Hd | [Hc | [Hc | [Hl | Hf]]]].
    + left. now rewrite Hd.
    + right; left. now rewrite Hc.
    + right; left. now rewrite Hc.
    + now right; right; left.
    + do 3 right. now apply insufficientFunds_spec.
Qed.

Lemma disabled_without_action_witness :
  actionProps (mkEnv None (Some 0) (Some quote) 50 (Some USDC) (Some (usdc 500))
                     (Some (usdc 100)) (Some eth_5_100) EXACT_INPUT (Some (usdc 100))
                     false false false false None None)
  = Fulfilled disabledProps.
Proof.
  apply (proj2 (disabled_without_action_iff _)).
  right; right; left. reflexivity.
Defined.

(** X2. Reading the button back: whenever the derivation returns a
    descriptor, the state it is in tells which branch was taken. Disabled
    means the first condition held; needs-approval means it did not and
    [notApproved] did; approval-pending means neither did and
    [pendingApproval] did; ready means none of the three did. *)
Theorem button_state_decision_table :
  forall (env : Env) (p : ActionButtonProps),
    actionProps env = Fulfilled p ->
    (in_state DisabledState p = true <-> blocked env = true)
    /\ (in_state NeedsApprovalState p = true <->
        blocked env = false /\ notApproved env = true)
    /\ (in_state ApprovalPendingState p = true <->
        blocked env = false /\ notApproved env = false /\ pendingApproval env = true)
    /\ (in_state ReadyState p = true <->
        blocked env = false /\ notApproved env = false /\ pendingApproval env = false).
Proof.
  intros env p Hres. unfold actionProps in Hres.
  destruct (blocked env).
  { injection Hres as <-. cbn. intuition congruence. }
  destruct (notApproved env).
  { destruct (approvalCurrency env) as [c|]; [|discriminate].
    injection Hres as <-.
    rewrite !needsApprovalProps_state. intuition congruence. }
  destruct (pendingApproval env); injection Hres as <-; cbn; intuition congruence.
Qed.

Lemma button_state_decision_table_witness :
  in_state ApprovalPendingState (approvalPendingProps (Some "0xa")) = true <->
  blocked (with_approval false true (Some "0xa") readyEnv) = false
  /\ notApproved (with_approval false true (Some "0xa") readyEnv) = false
  /\ pendingApproval (with_approval false true (Some "0xa") readyEnv) = true.
Proof.
  exact (proj1 (proj2 (proj2
           (button_state_decision_table
              (with_approval false true (Some "0xa") readyEnv)
              (approvalPendingProps (Some "0xa")) eq_refl)))).
Defined.

(** X3. In the needs-approval branch the button is enabled, the wording
    follows [supportsPermit] (Allow with a permit, Approve without), and the
    symbol shown is the input currency's whenever an input currency is
    selected, whatever currency the approval amount carries; the approval
    amount's currency is used only when no input currency is selected. A
    pending approval or a hash in the registry changes nothing here. *)
Theorem needs_approval_names_input_currency_first :
  forall env : Env,
    blocked env = false ->
    notApproved env = true ->
    (forall c,
        inputCurrency env = Some c ->
        actionProps env
        = Fulfilled
            {| props_disabled := None;
               props_action := Some
                 {| message := if supportsPermit env
                               then AllowFirst (symbol c) else ApproveFirst (symbol c);
                    icon := None;
                    onClick := handleApproveOrPermit;
                    children := if supportsPermit env then Allow else Approve |} |})
    /\ (forall a,
           inputCurrency env = None ->
           approvalCurrencyAmount env = Some a ->
           actionProps env
           = Fulfilled
               {| props_disabled := None;
                  props_action := Some
                    {| message := if supportsPermit env
                                  then AllowFirst (symbol (currency a))
                                  else ApproveFirst (symbol (currency a));
                       icon := None;
                       onClick := handleApproveOrPermit;
                       children := if supportsPermit env then Allow else Approve |} |}).
Proof.
  intros env Hb Hna.
  rewrite (unblocked_actionProps env Hb), Hna. unfold approvalCurrency.
  split.
  - intros c ->. reflexivity.
  - intros a -> ->. reflexivity.
Qed.

Lemma needs_approval_witness :
  actionProps (mkEnv None (Some 1) (Some quote) 50 (Some USDC) (Some (usdc 500))
                     (Some (usdc 100)) (Some eth_5_100) EXACT_INPUT (Some eth_5_100)
                     true true false true (Some "0xa") None)
  = Fulfilled
      {| props_disabled := None;
         props_action := Some
           {| message := AllowFirst (Some "USDC");
              icon := None;
              onClick := handleApproveOrPermit;
              children := Allow |} |}.
Proof.
  exact (proj1 (needs_approval_names_input_currency_first
                  (mkEnv None (Some 1) (Some quote) 50 (Some USDC) (Some (usdc 500))
                         (Some (usdc 100)) (Some eth_5_100) EXACT_INPUT (Some eth_5_100)
                         true true false true (Some "0xa") None)
                  eq_refl eq_refl)
               USDC eq_refl).
Defined.

(** X4. The dependency array of the [useMemo] is complete: two renders that
    agree on the listed values derive the same descriptor (or both stop on
    the invariant), so a memoised descriptor is never stale. The approval
    amount matters through its currency only; the trade, the slippage, the
    output amount, the trade type and the swap callback do not matter. *)
Theorem actionProps_depends_only_on_its_deps :
  forall env1 env2 : Env,
    actionPropsDeps env1 = actionPropsDeps env2 ->
    actionProps env1 = actionProps env2.
Proof.
  intros env1 env2 Hdeps. unfold actionPropsDeps in Hdeps.
  injection Hdeps as Hcur Hhash Hchain Hdis Hin Hamt Hbal Hload Hna Hpa Hpermit.
  unfold actionProps, blocked, insufficientFunds, approvalCurrency.
  now rewrite Hcur, Hhash, Hchain, Hdis, Hin, Hamt, Hbal, Hload, Hna, Hpa, Hpermit.
Qed.

Lemma actionProps_deps_witness :
  actionProps readyEnv
  = actionProps (mkEnv None (Some 1) (Some fresher_quote) 30 (Some USDC) (Some (usdc 500))
                       (Some (usdc 100)) None EXACT_OUTPUT
                       (Some (mkAmount USDC 7 3)) false false false false None None).
Proof.
  apply actionProps_depends_only_on_its_deps. reflexivity.
Defined.

(** ** Further properties of the confirm chain *)

(** X5. The dependency array of the [useCallback] is complete: two renders
    that agree on the two amounts, the swap callback and the trade type give
    an [onConfirm] that behaves the same on every store. Nothing else of the
    render matters: a confirm goes through even while the button of that
    render is disabled or asks for approval. *)
Theorem onConfirm_depends_only_on_its_deps :
  forall (env1 env2 : Env) (s : Store),
    onConfirmDeps env1 = onConfirmDeps env2 ->
    onConfirm env1 s = onConfirm env2 s.
Proof.
  intros env1 env2 s Hdeps. unfold onConfirmDeps in Hdeps.
  injection Hdeps as Hin Hout Hcb Htype.
  unfold onConfirm. rewrite Hcb.
  destruct (swapCallback env2) as [[r|e]|]; try reflexivity.
  unfold finally_, catch_, then_, bind, settled, onSwapResponse.
  now rewrite Hin, Hout, Htype.
Qed.

Lemma onConfirm_deps_witness :
  onConfirm disabledByCallerEnv reviewingStore = onConfirm readyEnv reviewingStore.
Proof.
  apply onConfirm_depends_only_on_its_deps. reflexivity.
Defined.

(** X6. Nothing in [onConfirm] remembers that a submission was made: a
    second confirm submits again. The writes of a confirm happen when its
    submission settles, so when two submissions succeed with their amounts
    present the log gains two records in the order in which the submissions
    settle ([env1] is the confirm that settles first, whichever was clicked
    first), and the displayed hash is that of the one that settles last. *)
Theorem confirm_twice_records_twice :
  forall (env1 env2 : Env) (s : Store) (r1 r2 : TransactionResponse)
         (input1 output1 input2 output2 : CurrencyAmount),
    swapCallback env1 = Some (Fulfilled r1) ->
    inputCurrencyAmount env1 = Some input1 ->
    outputCurrencyAmount env1 = Some output1 ->
    swapCallback env2 = Some (Fulfilled r2) ->
    inputCurrencyAmount env2 = Some input2 ->
    outputCurrencyAmount env2 = Some output2 ->
    transactions (exec (onConfirm env2) (exec (onConfirm env1) s))
    = transactions s
      ++ [swapRecord env1 r1 input1 output1; swapRecord env2 r2 input2 output2]
    /\ displayTxHash (exec (onConfirm env2) (exec (onConfirm env1) s)) = Some (hash r2).
Proof.
  intros env1 env2 s r1 r2 input1 output1 input2 output2
         Hcb1 Hin1 Hout1 Hcb2 Hin2 Hout2.
  assert (Hone : forall env r input output s0,
             swapCallback env = Some (Fulfilled r) ->
             inputCurrencyAmount env = Some input ->
             outputCurrencyAmount env = Some output ->
             exec (onConfirm env) s0
             = {| activeTrade := None;
                  displayTxHash := Some (hash r);
                  transactions := transactions s0 ++ [swapRecord env r input output];
                  console := console s0 |}).
  { intros env r input output s0 Hcb Hin Hout. unfold exec.
    rewrite (onConfirm_fulfilled env s0 r Hcb).
    unfold finally_, catch_.
    now rewrite (onSwapResponse_recorded env s0 r input output Hin Hout). }
  rewrite (Hone env2 r2 input2 output2 _ Hcb2 Hin2 Hout2).
  rewrite (Hone env1 r1 input1 output1 _ Hcb1 Hin1 Hout1). cbn.
  now rewrite <- app_assoc.
Qed.

Lemma confirm_twice_witness :
  List.length
    (transactions (exec (onConfirm refreshedEnv) (exec (onConfirm readyEnv) reviewingStore)))
  = 2%nat.
Proof.
  rewrite (proj1 (confirm_twice_records_twice readyEnv refreshedEnv reviewingStore
                    receipt receipt (usdc 100) eth_5_100
                    (usdc 100) (trade_outputAmount fresher_quote)
                    eq_refl eq_refl eq_refl eq_refl eq_refl eq_refl)).
  reflexivity.
Defined.

(** X7. What [onConfirm] prints: the rejection reason when the submission
    is rejected, the invariant error when it succeeds with an amount
    missing, and nothing when it succeeds with both amounts or when there is
    no swap callback. At most one line per confirm. *)
Theorem console_logs_exactly_the_failures :
  forall (env : Env) (s : Store),
    console (exec (onConfirm env) s)
    = match swapCallback env with
      | None => console s
      | Some (Rejected e) => console s ++ [e]
      | Some (Fulfilled _) =>
        if truthy (inputCurrencyAmount env) && truthy (outputCurrencyAmount env)
        then console s
        else console s ++ [InvariantViolation]
      end.
Proof.
  intros env s. unfold exec.
  destruct (swapCallback env) as [[r|e]|] eqn:Hcb.
  - rewrite (onConfirm_fulfilled env s r Hcb). unfold finally_, catch_.
    destruct (inputCurrencyAmount env) as [input|] eqn:Hin.
    + destruct (outputCurrencyAmount env) as [output|] eqn:Hout.
      * now rewrite (onSwapResponse_recorded env s r input output Hin Hout).
      * now rewrite (onSwapResponse_invariant env s r (or_intror Hout)).
    + now rewrite (onSwapResponse_invariant env s r (or_introl Hin)).
  - now rewrite (onConfirm_rejected env s e Hcb).
  - now rewrite (onConfirm_absent env s Hcb).
Qed.

(** ** Runs *)

(** One event adds nothing to the log, or one SWAP record when it is a
    confirm. *)
Lemma step_log (env : Env) (ev : Event) (s : Store) :
  exists added,
    transactions (exec (step env ev) s) = transactions s ++ added
    /\ Forall (fun info => info_type info = SWAP) added
    /\ (List.length added <= if isConfirm ev then 1 else 0)%nat.
Proof.
  destruct ev as [|[| |]]; try (exists []; cbn; rewrite app_nil_r; now repeat split).
  cbn [step handle isConfirm]. unfold exec.
  destruct (swapCallback env) as [[r|e]|] eqn:Hcb.
  - rewrite (onConfirm_fulfilled env s r Hcb). unfold finally_, catch_.
    destruct (inputCurrencyAmount env) as [input|] eqn:Hin.
    + destruct (outputCurrencyAmount env) as [output|] eqn:Hout.
      * rewrite (onSwapResponse_recorded env s r input output Hin Hout).
        exists [swapRecord env r input output]. cbn. split; [reflexivity|].
        split; [|lia]. now repeat constructor.
      * rewrite (onSwapResponse_invariant env s r (or_intror Hout)).
        exists []; cbn; rewrite app_nil_r; repeat split; [constructor|lia].
    + rewrite (onSwapResponse_invariant env s r (or_introl Hin)).
      exists []; cbn; rewrite app_nil_r; repeat split; [constructor|lia].
  - rewrite (onConfirm_rejected env s e Hcb).
    exists []; cbn; rewrite app_nil_r; repeat split; [constructor|lia].
  - rewrite (onConfirm_absent env s Hcb).
    exists []; cbn; rewrite app_nil_r; repeat split; [constructor|lia].
Qed.

(** X8. Over any run, through any sequence of renders, the transaction log
    only grows at its end: the records that were there stay, in place; every
    record the component adds is of type SWAP; and it adds at most one per
    confirm. *)
Theorem log_only_grows :
  forall (trace : list (Env * Event)) (s : Store),
    exists added,
      transactions (run trace s) = transactions s ++ added
      /\ Forall (fun info => info_type info = SWAP) added
      /\ (List.length added <= confirms trace)%nat.
Proof.
  induction trace as [|[env ev] rest IH]; intros s.
  - exists []. cbn. rewrite app_nil_r. repeat split; [constructor|lia].
  - destruct (step_log env ev s) as (added1 & Hlog1 & Hswap1 & Hlen1).
    destruct (IH (exec (step env ev) s)) as (added2 & Hlog2 & Hswap2 & Hlen2).
    exists (added1 ++ added2). cbn [run]. split; [|split].
    + now rewrite Hlog2, Hlog1, app_assoc.
    + apply Forall_app. now split.
    + rewrite length_app. unfold confirms in *. cbn [filter snd].
      destruct (isConfirm ev); cbn [List.length]; lia.
Qed.

(** Events other than a confirm write [activeTrade] only. *)
Lemma step_frame (env : Env) (ev : Event) (s : Store) :
  isConfirm ev = false ->
  displayTxHash (exec (step env ev) s) = displayTxHash s
  /\ transactions (exec (step env ev) s) = transactions s
  /\ console (exec (step env ev) s) = console s.
Proof.
  destruct ev as [|[| |]]; intros Hev; try discriminate; repeat split.
Qed.

(** X9. Only a confirm writes outside the component: over a run without
    confirms (quote updates, opening and closing the dialog, in any order
    and number) the displayed hash, the transaction log and the console are
    what they were. *)
Theorem shared_stores_untouched_without_confirm :
  forall (trace : list (Env * Event)) (s : Store),
    confirms trace = 0%nat ->
    displayTxHash (run trace s) = displayTxHash s
    /\ transactions (run trace s) = transactions s
    /\ console (run trace s) = console s.
Proof.
  induction trace as [|[env ev] rest IH]; intros s Hnone; [now repeat split|].
  unfold confirms in Hnone. cbn [filter snd] in Hnone.
  destruct (isConfirm ev) eqn:Hev; [discriminate|].
  destruct (step_frame env ev s Hev) as (Hh & Ht & Hc).
  destruct (IH (exec (step env ev) s) Hnone) as (Hh' & Ht' & Hc').
  cbn [run]. rewrite Hh', Ht', Hc'. now repeat split.
Qed.

Lemma shared_stores_witness :
  transactions
    (run [(readyEnv, Invoked OpenReview); (refreshedEnv, TradeUpdated);
          (refreshedEnv, Invoked CloseDialog)] idleStore) = [].
Proof.
  exact (proj1 (proj2 (shared_stores_untouched_without_confirm
                         [(readyEnv, Invoked OpenReview); (refreshedEnv, TradeUpdated);
                          (refreshedEnv, Invoked CloseDialog)] idleStore eq_refl))).
Defined.

(** X10. A closed dialog stays closed until the primary button is clicked:
    over a run without such a click that starts with no snapshot, there is
    no snapshot at the end, however the quote changes and whatever the
    confirms do. *)
Theorem closed_dialog_stays_closed_without_click :
  forall (trace : list (Env * Event)) (s : Store),
    activeTrade s = None ->
    forallb (fun step => negb (isOpenReview (snd step))) trace = true ->
    activeTrade (run trace s) = None
    /\ forall env, dialogElement env (run trace s) = None.
Proof.
  induction trace as [|[env ev] rest IH]; intros s Hnone Hclicks.
  - cbn [run]. split; [exact Hnone|]. intros env. unfold dialogElement. now rewrite Hnone.
  - cbn [forallb snd] in Hclicks. apply andb_true_iff in Hclicks as [Hev Hrest].
    cbn [run]. apply IH; [|exact Hrest].
    apply absent_snapshot_stays_absent; [exact Hnone|].
    intros ->. discriminate.
Qed.

Lemma closed_dialog_witness :
  activeTrade
    (run [(refreshedEnv, TradeUpdated); (readyEnv, Invoked Confirm);
          (refreshedEnv, TradeUpdated)] idleStore) = None.
Proof.
  exact (proj1 (closed_dialog_stays_closed_without_click
                  [(refreshedEnv, TradeUpdated); (readyEnv, Invoked Confirm);
                   (refreshedEnv, TradeUpdated)] idleStore eq_refl eq_refl)).
Defined.

(** ** Further properties of the snapshot and the rendered tree *)

(** X11. The quote effect is idempotent, and it leaves a snapshot taken by
    a click in the same render as it is: running the effect again, or after
    the click, changes nothing. *)
Theorem tradeEffect_idempotent :
  forall (env : Env) (s : Store),
    exec (tradeEffect env) (exec (tradeEffect env) s) = exec (tradeEffect env) s
    /\ exec (tradeEffect env) (exec (handle env OpenReview) s)
       = exec (handle env OpenReview) s.
Proof.
  intros env [active shown log printed]. cbn.
  destruct active as [t|], (trade env) as [live|]; split; reflexivity.
Qed.

(** X12. When the live quote is gone, the effect drops the snapshot, so an
    open dialog closes, and a click on the primary button opens nothing. *)
Theorem lost_quote_closes_dialog :
  forall (env : Env) (s : Store),
    trade env = None ->
    activeTrade (exec (step env TradeUpdated) s) = None
    /\ dialogElement env (exec (step env TradeUpdated) s) = None
    /\ activeTrade (exec (step env (Invoked OpenReview)) s) = None
    /\ dialogElement env (exec (step env (Invoked OpenReview)) s) = None.
Proof.
  intros env s Hgone.
  assert (Heffect : activeTrade (exec (step env TradeUpdated) s) = None).
  { cbn. rewrite Hgone. now destruct (activeTrade s). }
  assert (Hclick : activeTrade (exec (step env (Invoked OpenReview)) s) = None).
  { cbn. exact Hgone. }
  unfold dialogElement. rewrite Heffect, Hclick. repeat split.
Qed.

Lemma lost_quote_witness :
  activeTrade reviewingStore = Some quote
  /\ activeTrade (exec (step noQuoteEnv TradeUpdated) reviewingStore) = None.
Proof.
  split; [reflexivity|].
  exact (proj1 (lost_quote_closes_dialog noQuoteEnv reviewingStore eq_refl)).
Defined.

(** X13. A button that turns disabled does not take the dialog down: with
    the first condition true and a snapshot set, the render returns the
    disabled button together with the dialog on that snapshot, the confirm
    action included. *)
Theorem dialog_survives_disabled_button :
  forall (tokenColorExtraction : bool) (env : Env) (s : Store) (t : Trade),
    blocked env = true ->
    activeTrade s = Some t ->
    render tokenColorExtraction env s
    = Fulfilled
        {| view_button :=
             {| button_color := if tokenColorExtraction then interactive else accent;
                button_onClick := OpenReview;
                button_props := disabledProps |};
           view_dialog :=
             Some {| dialog_color := dialogColor;
                     dialog_onClose := CloseDialog;
                     dialog_trade := t;
                     dialog_allowedSlippage := allowedSlippage env;
                     dialog_onConfirm := Confirm |} |}.
Proof.
  intros tce env s t Hb Hactive.
  unfold render, dialogElement.
  now rewrite (blocked_is_disabled env Hb), Hactive.
Qed.

Lemma dialog_survives_witness :
  option_map dialog_trade
    (match render true disabledByCallerEnv reviewingStore with
     | Fulfilled v => view_dialog v
     | Rejected _ => None
     end) = Some quote.
Proof.
  rewrite (dialog_survives_disabled_button true disabledByCallerEnv reviewingStore quote
             eq_refl eq_refl).
  reflexivity.
Defined.

(** ** Properties of the hook wiring *)

(** X14. The pending-approval predicate agrees with the hash the component
    shows: asked for the component's own token and spender, it is true
    exactly when the looked-up [approvalHash] is a non-empty string. An
    empty hash counts as no pending approval. *)
Theorem pending_predicate_agrees_with_hash :
  forall (usePendingApproval : option Currency -> option string -> option string)
         (useSwapRouterAddress : option Trade -> option string)
         (input : option Currency) (approvalOptimized live : option Trade),
    useIsPendingApproval usePendingApproval (approvalToken input)
      (useSwapRouterAddress (optimizedTrade approvalOptimized live)) = true
    <->
    exists h,
      lookupApprovalHash usePendingApproval useSwapRouterAddress
                         input approvalOptimized live = Some h
      /\ h <> "".
Proof.
  intros lookup router input opt live.
  unfold useIsPendingApproval, lookupApprovalHash.
  destruct (lookup (approvalToken input) (router (optimizedTrade opt live)))
    as [[|ch rest]|]; cbn; split.
  - discriminate.
  - intros (h & [= <-] & Hne). now contradiction Hne.
  - intros _. eexists; split; [reflexivity | discriminate].
  - reflexivity.
  - discriminate.
  - intros (h & Hh & _). discriminate.
Qed.

Lemma pending_predicate_witness :
  exists h,
    lookupApprovalHash oneApprovalRegistry routerOf (Some USDC) None (Some quote) = Some h
    /\ h <> "".
Proof.
  exact (proj1 (pending_predicate_agrees_with_hash
                  oneApprovalRegistry routerOf (Some USDC) None (Some quote))
               eq_refl).
Defined.

(** X15. The key of the pending-approval lookup: the token is the input
    currency when that is a token and is left out otherwise (no input
    currency, or a native one); the spender is resolved from the
    approval-optimized trade when there is one and from the live trade
    otherwise, and from no trade only when both are absent. *)
Theorem approval_lookup_key :
  forall (input : option Currency) (approvalOptimized live : option Trade),
    (forall t, approvalToken input = Some t <-> input = Some t /\ isToken t = true)
    /\ (approvalToken input = None <->
        input = None \/ exists c, input = Some c /\ isToken c = false)
    /\ (forall t, approvalOptimized = Some t ->
                  optimizedTrade approvalOptimized live = Some t)
    /\ (approvalOptimized = None -> optimizedTrade approvalOptimized live = live)
    /\ (optimizedTrade approvalOptimized live = None <->
        approvalOptimized = None /\ live = None).
Proof.
  intros input opt live. unfold approvalToken, optimizedTrade, js_or.
  split; [|split; [|split; [|split]]].
  - intros t. destruct input as [c|]; [|split; [discriminate | now intros [? _]]].
    destruct (isToken c) eqn:Htok; split.
    + intros [= <-]. now split.
    + intros [[= <-] _]. reflexivity.
    + discriminate.
    + intros [[= <-] Ht]. congruence.
  - destruct input as [c|]; [|split; [now left | reflexivity]].
    destruct (isToken c) eqn:Htok; split.
    + discriminate.
    + intros [Hnone | (c' & [= <-] & Hc')]; congruence.
    + intros _. right. now exists c.
    + reflexivity.
  - intros t ->. reflexivity.
  - intros ->. reflexivity.
  - destruct opt; split; solve [discriminate | tauto | now intros [? _]].
Qed.

Lemma approval_lookup_key_witness :
  approvalToken (Some ETH) = None.
Proof.
  apply (proj2 (proj1 (proj2 (approval_lookup_key (Some ETH) None (Some quote))))).
  right. exists ETH. split; reflexivity.
Defined.
